(** * pandaIA: the judge agent's LLM call unit, the callbacks and the Azure
      OpenAI constructor

    A shallow embedding of

    - [pandasai/ee/agents/judge_agent/pipeline/llm_call.py]  ([LLMCall.execute]),
    - [pandasai/callbacks/base.py]  ([BaseCallBack], [StdoutCallBack]),
    - [pandasai/llm/azure_openai.py]  ([AzureOpenAI.__init__]).

    Python exceptions are values of [exception]; a computation is a function
    from the world it runs in to a [Result] and the world it leaves behind.
    A raised exception keeps every effect made before it, as in Python. *)

From Stdlib Require Import ZArith String Ascii List Bool Lia.
Import ListNotations.
Local Open Scope string_scope.
Local Open Scope Z_scope.

(** ** Exceptions *)

(** The exception classes of [pandasai.exceptions] raised in the three
    files, the built-in [AttributeError], and [CollaboratorError] for whatever
    a collaborator (the LLM backend, the router) raises on its own: a
    transport failure, a type error, ... *)
Inductive exception : Type :=
| InvalidOutputValueMismatch (msg : string)
| MethodNotImplementedError (msg : string)
| APIKeyNotFoundError (msg : string)
| MissingModelError (msg detail : string)
| AttributeError (msg : string)
| CollaboratorError (kind msg : string).

Inductive Result (A : Type) : Type :=
| Ok (a : A)
| Raise (e : exception).
Arguments Ok {A} a.
Arguments Raise {A} e.

(** ** Python's [needle in haystack] on [str] *)

Fixpoint startswith (needle s : string) : bool :=
  match needle, s with
  | EmptyString, _ => true
  | String _ _, EmptyString => false
  | String a needle', String b s' => Ascii.eqb a b && startswith needle' s'
  end.

Fixpoint contains (needle s : string) : bool :=
  startswith needle s ||
  match s with
  | EmptyString => false
  | String _ s' => contains needle s'
  end.

(** The two verdict markers tested by [execute]. *)
Definition has_yes (response : string) : bool := contains "<Yes>" response.
Definition has_no (response : string) : bool := contains "<No>" response.

(** ** The collaborators of the pipeline *)

(** What the collaborators are asked to do, in the order it happens. *)
Inductive event : Type :=
| EvCall (n : nat)                 (* the n-th call of [llm.call] *)
| EvLog (message : string)         (* [logger.log(message)] *)
| EvAdd (key value : string).      (* [pipeline_context.add(key, value)] *)

(** Modelled from the spec: the class [LogicUnitOutput] of
    [pandasai/pipelines/logic_unit_output.py] is not part of the sources;
    its four fields are the four positional arguments [execute] passes:
    the logical result of the step, [success], [message] and the payload
    dictionary, kept as the ordered list of its items. *)
Record LogicUnitOutput : Type := mkLogicUnitOutput {
  output : bool;
  success : bool;
  message : string;
  metadata : list (string * string)
}.

Section Pipeline.

(** [input: Any]: the prompt handed to the unit. *)
Variable Input : Type.

(** [pipeline_context.config]: the retry limit (a Python [int]) and the
    backend.  The backend is an opaque object; over one run it is observed
    through the outcome of its n-th [call], a response text or an exception. *)
Record Config : Type := mkConfig {
  max_retries : Z;
  llm : Input -> nat -> Result string
}.

(** The state [execute] acts upon: how often the backend has been called,
    what the logger has received, the log of the pipeline context, and the
    trace of all of these in order of occurrence. *)
Record World : Type := mkWorld {
  llm_calls : nat;
  logger_logs : list string;
  context_log : list (string * string);
  events : list event
}.

(** Computations: state passing with exceptions. *)
Definition M (A : Type) : Type := World -> Result A * World.

Definition ret {A} (a : A) : M A := fun w => (Ok a, w).

Definition raise {A} (e : exception) : M A := fun w => (Raise e, w).

Definition bind {A B} (m : M A) (k : A -> M B) : M B :=
  fun w =>
    match m w with
    | (Ok a, w') => k a w'
    | (Raise e, w') => (Raise e, w')
    end.

(** [try: body except Exception: handler]. *)
Definition try_except {A} (body : M A) (handler : exception -> M A) : M A :=
  fun w =>
    match body w with
    | (Ok a, w') => (Ok a, w')
    | (Raise e, w') => handler e w'
    end.

Notation "x <- m ;; k" := (bind m (fun x => k))
  (at level 61, m at next level, right associativity).
Notation "m ;;; k" := (bind m (fun _ => k))
  (at level 61, right associativity).

(** [pipeline_context.config.llm.call(input, pipeline_context)]. *)
Definition llm_call (cfg : Config) (input : Input) : M string :=
  fun w =>
    (llm cfg input (llm_calls w),
     mkWorld (S (llm_calls w)) (logger_logs w) (context_log w)
             (events w ++ [EvCall (llm_calls w)])).

(** [logger.log(message)]. *)
Definition logger_log (message : string) : M unit :=
  fun w =>
    (Ok tt,
     mkWorld (llm_calls w) (logger_logs w ++ [message]) (context_log w)
             (events w ++ [EvLog message])).

(** Modelled from the spec: [PipelineContext.add] of
    [pandasai/pipelines/pipeline_context.py] is not part of the sources;
    by the spec [add(key, value)] appends the entry to the context's log
    (append-only, insertion order kept, duplicate keys allowed). *)
Definition pipeline_context_add (key value : string) : M unit :=
  fun w =>
    (Ok tt,
     mkWorld (llm_calls w) (logger_logs w) (context_log w ++ [(key, value)])
             (events w ++ [EvAdd key value])).

(** ** [LLMCall.execute] *)

(** The f-string given to the logger: the response on a line of its own,
    indented as in the source. *)
Definition indent : string := "                    ".

Definition nl : string := String (ascii_of_nat 10) EmptyString.

Definition log_message (response : string) : string :=
  "LLM response:" ++ nl ++ indent ++ response ++ nl ++ indent.

(** How one turn of the [while] loop ends: with [return], or at the end of
    the body with the new value of [retry_count]. *)
Inductive flow : Type :=
| Return (v : LogicUnitOutput)
| Next (retry_count : Z).

(** The body of the [while] loop. *)
Definition attempt (cfg : Config) (input : Input) (retry_count : Z) : M flow :=
  response <- llm_call cfg input ;;
  logger_log (log_message response) ;;;
  try_except
    (result <- (if has_yes response then ret true
                else if has_no response then ret false
                else raise (InvalidOutputValueMismatch
                              "Invalid response of LLM Call")) ;;
     pipeline_context_add "llm_call" response ;;;
     ret (Return (mkLogicUnitOutput result true "Code Generated Successfully"
                    [("content_type", "string"); ("value", response)])))
    (fun e =>
       if retry_count =? max_retries cfg then raise e
       else ret (Next (retry_count + 1))).

(** [while retry_count <= max_retries: ...]; leaving the loop by its
    condition ends the function, which then returns [None].  [fuel] bounds
    the number of times the condition is tested; [None] at the outside
    means the fuel ran out. *)
Fixpoint while_loop (cfg : Config) (input : Input) (fuel : nat)
    (retry_count : Z) (w : World)
    : option (Result (option LogicUnitOutput) * World) :=
  match fuel with
  | O => None
  | S fuel' =>
      if retry_count <=? max_retries cfg then
        match attempt cfg input retry_count w with
        | (Ok (Return v), w') => Some (Ok (Some v), w')
        | (Ok (Next retry_count'), w') =>
            while_loop cfg input fuel' retry_count' w'
        | (Raise e, w') => Some (Raise e, w')
        end
      else Some (Ok None, w)
  end.

(** The condition is tested at most [max_retries + 2] times. *)
Definition execute_fuel (cfg : Config) : nat :=
  S (Z.to_nat (max_retries cfg + 1)).

(** [LLMCall.execute(input, context=..., logger=...)], with both keyword
    arguments given: [retry_count = 0], then the loop. *)
Definition execute (cfg : Config) (input : Input) (w : World)
    : option (Result (option LogicUnitOutput) * World) :=
  while_loop cfg input (execute_fuel cfg) 0 w.

End Pipeline.

Arguments mkConfig {Input} _ _.
Arguments max_retries {Input} _.
Arguments llm {Input} _ _ _.
Arguments llm_call {Input} _ _ _.
Arguments attempt {Input} _ _ _ _.
Arguments while_loop {Input} _ _ _ _ _.
Arguments execute_fuel {Input} _.
Arguments execute {Input} _ _ _.

(** ** The worlds a run goes through *)

Section Worlds.

Variable Input : Type.
Variable cfg : Config Input.
Variable input : Input.

(** The backend has been called and has raised. *)
Definition after_call (w : World) : World :=
  mkWorld (S (llm_calls w)) (logger_logs w) (context_log w)
          (events w ++ [EvCall (llm_calls w)]).

(** The backend has been called and its response given to the logger. *)
Definition after_response (w : World) (response : string) : World :=
  mkWorld (S (llm_calls w)) (logger_logs w ++ [log_message response])
          (context_log w)
          ((events w ++ [EvCall (llm_calls w)]) ++ [EvLog (log_message response)]).

(** The response has been added to the pipeline context. *)
Definition after_add (w : World) (response : string) : World :=
  mkWorld (llm_calls w) (logger_logs w)
          (context_log w ++ [("llm_call", response)])
          (events w ++ [EvAdd "llm_call" response]).

Definition after_responses (w : World) (rs : list string) : World :=
  fold_left after_response rs w.

(** The value [execute] returns for an accepted response. *)
Definition unit_output (response : string) : LogicUnitOutput :=
  mkLogicUnitOutput (has_yes response) true "Code Generated Successfully"
    [("content_type", "string"); ("value", response)].

(** A response [execute] rejects: it has neither marker. *)
Definition rejected (response : string) : Prop :=
  has_yes response = false /\ has_no response = false.

(** The response grammar in the spec's words: exactly one of the two
    markers is well formed; neither, or both, is malformed. *)
Definition spec_malformed (response : string) : bool :=
  negb (xorb (has_yes response) (has_no response)).

(** From its [c]-th call on, the backend answers with the texts [rs]. *)
Definition feeds (c : nat) (rs : list string) : Prop :=
  forall j r, nth_error rs j = Some r -> llm cfg input (c + j)%nat = Ok r.

(** The calls and logger notifications of the attempts answered by [rs],
    the first of them being call number [c]. *)
Fixpoint attempt_events (c : nat) (rs : list string) : list event :=
  match rs with
  | [] => []
  | r :: rs' => EvCall c :: EvLog (log_message r) :: attempt_events (S c) rs'
  end.

(** The turn of the loop that ends the run, as a relation:
    [last_turn retry_count w res w']. *)
Inductive last_turn : Z -> World -> Result (option LogicUnitOutput) -> World -> Prop :=
| turn_condition_false retry_count w :
    max_retries cfg < retry_count ->
    last_turn retry_count w (Ok None) w
| turn_backend_raises retry_count w e :
    retry_count <= max_retries cfg ->
    llm cfg input (llm_calls w) = Raise e ->
    last_turn retry_count w (Raise e) (after_call w)
| turn_accepted retry_count w r :
    retry_count <= max_retries cfg ->
    llm cfg input (llm_calls w) = Ok r ->
    has_yes r = true \/ has_no r = true ->
    last_turn retry_count w (Ok (Some (unit_output r)))
              (after_add (after_response w r) r)
| turn_exhausted w r :
    llm cfg input (llm_calls w) = Ok r ->
    rejected r ->
    last_turn (max_retries cfg) w
              (Raise (InvalidOutputValueMismatch "Invalid response of LLM Call"))
              (after_response w r).

(** The runs of the loop: turns that end in a retry, then the last one. *)
Inductive loop_run : Z -> World -> Result (option LogicUnitOutput) -> World -> Prop :=
| run_last retry_count w res w' :
    last_turn retry_count w res w' ->
    loop_run retry_count w res w'
| run_retry retry_count w r res w' :
    retry_count < max_retries cfg ->
    llm cfg input (llm_calls w) = Ok r ->
    rejected r ->
    loop_run (retry_count + 1) (after_response w r) res w' ->
    loop_run retry_count w res w'.

End Worlds.

Arguments feeds {Input} cfg input c rs.
Arguments last_turn {Input} cfg input _ _ _ _.
Arguments loop_run {Input} cfg input _ _ _ _.

(** ** The callbacks of [pandasai/callbacks/base.py] *)

(** The capability [on_code(response)]; a callback acts on the text written
    to standard output so far. *)
Class CallBack (C : Type) : Type := {
  on_code : C -> string -> string -> Result unit * string
}.

(** [class BaseCallBack]: [@abstractmethod] on a class without [ABCMeta]
    leaves the class instantiable and the method callable. *)
Inductive BaseCallBack : Type := BaseCallBack_new.

#[export] Instance BaseCallBack_CallBack : CallBack BaseCallBack := {
  on_code _ response stdout :=
    (Raise (MethodNotImplementedError "Must have implemented this."), stdout)
}.

(** [class StdoutCallBack(BaseCallBack)] overrides [on_code] with
    [print(response)]. *)
Inductive StdoutCallBack : Type := StdoutCallBack_new.

#[export] Instance StdoutCallBack_CallBack : CallBack StdoutCallBack := {
  on_code _ response stdout := (Ok tt, stdout ++ response ++ nl)
}.

(** ** [AzureOpenAI.__init__] *)

(** One entry of [model_list], the argument of litellm's [Router]. *)
Record LitellmParams : Type := mkLitellmParams {
  model : string;
  api_key : option string;
  api_version : option string;
  api_base : option string
}.

Record Deployment : Type := mkDeployment {
  model_name : string;
  litellm_params : LitellmParams;
  tpm : Z;
  rpm : Z
}.

(** What reading [self.<name>] finds when [__init__] has not assigned the
    attribute: nothing ([AttributeError]), or the value the class or one of
    its bases gives it.  The class body of [AzureOpenAI] only annotates
    [api_base] and [api_version]; the base class [BaseOpenAI] is not part of
    the sources, so the three lookups are left open. *)
Inductive attribute : Type :=
| Unset
| Value (v : option string).

Record ClassAttributes : Type := mkClassAttributes {
  cls_api_token : attribute;
  cls_api_base : attribute;
  cls_api_version : attribute
}.

Definition getattr (name : string) (a : attribute) : Result (option string) :=
  match a with
  | Unset =>
      Raise (AttributeError
               ("'AzureOpenAI' object has no attribute '" ++ name ++ "'"))
  | Value v => Ok v
  end.

(** [str(x)] inside an f-string. *)
Definition format_value (x : option string) : string :=
  match x with
  | None => "None"
  | Some s => s
  end.

(** [a or b] on optional strings: [None] and the empty string are falsy. *)
Definition py_or (a b : option string) : option string :=
  match a with
  | None => b
  | Some EmptyString => b
  | Some _ => a
  end.

Fixpoint kwargs_get (kwargs : list (string * string)) (key : string)
    : option string :=
  match kwargs with
  | [] => None
  | (k, v) :: kwargs' => if String.eqb k key then Some v else kwargs_get kwargs' key
  end.

(** The fields [__init__] sets on the new object. *)
Record AzureOpenAI : Type := mkAzureOpenAI {
  router : list Deployment;
  is_chat_model : bool;
  engine : string;
  openai_proxy : option string
}.

Definition is_None (x : option string) : bool :=
  match x with
  | None => true
  | Some _ => false
  end.

Definition and_then {A B} (r : Result A) (k : A -> Result B) : Result B :=
  match r with
  | Ok a => k a
  | Raise e => Raise e
  end.

(** [AzureOpenAI.__init__]; [getenv_proxy] is [os.getenv("OPENAI_PROXY")].
    The calls [Router(model_list=model_list)] and [self._set_params] (given the keyword arguments)
    go to code outside the sources: the router is kept as the list it is
    built from, and the inference parameters are not modelled. *)
Definition AzureOpenAI_init (cls : ClassAttributes)
    (api_token api_base api_version deployment_name : option string)
    (is_chat_model : bool) (kwargs : list (string * string))
    (getenv_proxy : option string) : Result AzureOpenAI :=
  let model_list :=
    [ mkDeployment "gpt-3.5-turbo"
        (mkLitellmParams ("azure/" ++ format_value deployment_name)
                         api_token api_version api_base)
        240000 1800 ] in
  and_then (getattr "api_token" (cls_api_token cls)) (fun self_api_token =>
  if is_None self_api_token then
    Raise (APIKeyNotFoundError
      ("Azure OpenAI key is required. Please add an environment variable " ++
       "`OPENAI_API_KEY` or pass `api_token` as a named parameter"))
  else
  and_then (getattr "api_base" (cls_api_base cls)) (fun self_api_base =>
  if is_None self_api_base then
    Raise (APIKeyNotFoundError
      ("Azure OpenAI base is required. Please add an environment variable " ++
       "`OPENAI_API_BASE` or pass `api_base` as a named parameter"))
  else
  and_then (getattr "api_version" (cls_api_version cls)) (fun self_api_version =>
  if is_None self_api_version then
    Raise (APIKeyNotFoundError
      ("Azure OpenAI version is required. Please add an environment variable " ++
       "`OPENAI_API_VERSION` or pass `api_version` as a named parameter"))
  else
  match deployment_name with
  | None =>
      Raise (MissingModelError "No deployment name provided."
               "Please include deployment name from Azure dashboard.")
  | Some name =>
      Ok (mkAzureOpenAI model_list is_chat_model name
            (py_or (kwargs_get kwargs "openai_proxy") getenv_proxy))
  end))).

(** The exception a construction ends with, if any. *)
Definition raised {A} (r : Result A) : option exception :=
  match r with
  | Ok _ => None
  | Raise e => Some e
  end.

(** [e.args]: the texts an exception carries. *)
Definition exception_args (e : exception) : list string :=
  match e with
  | InvalidOutputValueMismatch msg => [msg]
  | MethodNotImplementedError msg => [msg]
  | APIKeyNotFoundError msg => [msg]
  | MissingModelError msg detail => [msg; detail]
  | AttributeError msg => [msg]
  | CollaboratorError _ msg => [msg]
  end.

(** ** Backends and runs for concrete scenarios *)

(** A backend that answers its calls from a list, then with [dflt]. *)
Definition script (rs : list (Result string)) (dflt : Result string)
    : string -> nat -> Result string :=
  fun _ n => nth n rs dflt.

(** A backend that gives the same answer to every call. *)
Definition always (r : string) : string -> nat -> Result string :=
  fun _ _ => Ok r.

Definition empty_world : World := mkWorld 0 [] [] [].

Definition prompt : string := "Is the answer correct?".

(** [maxRetries = 2]; "garbage", "garbage", then an affirmative answer. *)
Definition third_attempt_yes : Config string :=
  mkConfig 2 (script [Ok "garbage"; Ok "garbage"; Ok "<Yes> looks correct"]
                     (Ok "")).

(** [maxRetries = 1]; both markers in every response. *)
Definition both_markers : Config string :=
  mkConfig 1 (always "<Yes><No>").

(** [maxRetries = 2]; both markers, the negative one first. *)
Definition no_then_yes : Config string :=
  mkConfig 2 (always "<No> or rather <Yes>").

(** [maxRetries = 2]; one rejected response, then the transport fails. *)
Definition transport_down : Config string :=
  mkConfig 2 (script [Ok "garbage"]
                     (Raise (CollaboratorError "TransportError" "connection reset"))).

(** [maxRetries = 1]; "garbage", then a negative answer. *)
Definition second_attempt_no : Config string :=
  mkConfig 1 (script [Ok "garbage"; Ok "The code is wrong: <No>"] (Ok "")).

(** A backend without markers, under the retry limit [k]. *)
Definition markerless (k : Z) (r : string) : Config string :=
  mkConfig k (always r).

(** The class as the sources show it: no value behind the three names. *)
Definition annotations_only : ClassAttributes :=
  mkClassAttributes Unset Unset Unset.

(** A class whose bases give the three names a default of [None]. *)
Definition defaults_None : ClassAttributes :=
  mkClassAttributes (Value None) (Value None) (Value None).

(** A class whose bases give the three names a text. *)
Definition defaults_set : ClassAttributes :=
  mkClassAttributes (Value (Some "inherited-key"))
                    (Value (Some "https://inherited.openai.azure.com/"))
                    (Value (Some "2023-05-15")).

(** ** [AzureOpenAI._default_params] *)

(** The values of a parameter dictionary: texts, and whatever else the base
    classes put there. *)
Inductive param_value (Other : Type) : Type :=
| ParamStr (s : string)
| ParamOther (o : Other).
Arguments ParamStr {Other} s.
Arguments ParamOther {Other} o.

(** A Python [dict] with text keys, as the list of its items in insertion
    order. *)
Fixpoint dict_get {V} (d : list (string * V)) (key : string) : option V :=
  match d with
  | [] => None
  | (k, v) :: d' => if String.eqb k key then Some v else dict_get d' key
  end.

(** [d[key] = v]: an existing key keeps its place, a new one goes last. *)
Fixpoint dict_set {V} (d : list (string * V)) (key : string) (v : V)
    : list (string * V) :=
  match d with
  | [] => [(key, v)]
  | (k, x) :: d' =>
      if String.eqb k key then (k, v) :: d' else (k, x) :: dict_set d' key v
  end.

Definition dict_keys {V} (d : list (string * V)) : list string := map fst d.

(** [{**super()._default_params, "engine": self.engine}]; the property of
    the base class is outside the sources and is taken as an argument. *)
Definition default_params {Other} (super_default_params : list (string * param_value Other))
    (self : AzureOpenAI) : list (string * param_value Other) :=
  dict_set super_default_params "engine" (ParamStr (engine self)).

(** ** [AzureOpenAI.call] *)

(** What [call] may be handed as [suffix]: a [str], or an object of a class
    that is not [str] and defines no [__radd__]. *)
Inductive pyvalue : Type :=
| PyStr (s : string)
| PyObject (class_name : string).

Definition double_quote : string := String (ascii_of_nat 34) EmptyString.

(** [s + right] for a [str] [s]. *)
Definition str_add (s : string) (right : pyvalue) : Result string :=
  match right with
  | PyStr t => Ok (s ++ t)
  | PyObject class_name =>
      Raise (CollaboratorError "TypeError"
               ("can only concatenate str (not " ++ double_quote ++ class_name
                ++ double_quote ++ ") to str"))
  end.

(** The two methods of litellm's [Router] that [call] uses, as the outcome
    they give for a prompt. *)
Record Router : Type := mkRouter {
  completion : string -> Result string;
  text_completion : string -> Result string
}.

(** [AzureOpenAI.call(instruction, suffix)]: the outcome and the value of
    [self.last_prompt] afterwards.  [instruction_to_string] is the outcome
    of [instruction.to_string()]. *)
Definition AzureOpenAI_call (self : AzureOpenAI) (rt : Router)
    (last_prompt : option string) (instruction_to_string : Result string)
    (suffix : pyvalue) : Result string * option string :=
  match and_then instruction_to_string (fun s => str_add s suffix) with
  | Raise e => (Raise e, last_prompt)
  | Ok text =>
      (if is_chat_model self then completion rt text
       else text_completion rt text,
       Some text)
  end.

(** The backend [LLMCall.execute] sees when [pipeline_context.config.llm] is
    an [AzureOpenAI]: [llm.call(input, pipeline_context)] binds the pipeline
    context to [suffix]. *)
Definition azure_backend {Input} (self : AzureOpenAI) (rt : nat -> Router)
    (to_string : Input -> Result string) (pipeline_context : pyvalue)
    : Input -> nat -> Result string :=
  fun instruction n =>
    fst (AzureOpenAI_call self (rt n) None (to_string instruction)
           pipeline_context).

(** A router that echoes the prompt, marking which method was asked. *)
Definition echo_router : Router :=
  mkRouter (fun text => Ok ("<Yes> chat: " ++ text))
           (fun text => Ok ("<No> text: " ++ text)).

(** As [third_attempt_yes], but the transport is down from the fourth
    call on. *)
Definition third_attempt_yes_then_down : Config string :=
  mkConfig 2 (script [Ok "garbage"; Ok "garbage"; Ok "<Yes> looks correct"]
                     (Raise (CollaboratorError "TransportError"
                               "connection reset"))).

(** The retry limit lowered by one, the backend kept. *)
Definition one_retry_less {Input} (cfg : Config Input) : Config Input :=
  mkConfig (max_retries cfg - 1) (llm cfg).

(** * Strings *)




(** [contains] is the substring test. *)

Lemma startswith_iff needle : forall s,
  startswith needle s = true <-> exists post, s = needle ++ post.
Proof.
  induction needle as [| a needle IH]; intros s; cbn.
  - split; [intros _; now exists s | reflexivity].
  - destruct s as [| b s].
    + split; [discriminate | intros (post & H); discriminate].
    + rewrite andb_true_iff, Ascii.eqb_eq, IH. split.
      * intros (-> & post & ->). now exists post.
      * intros (post & H). injection H as -> ->. split; [reflexivity | now exists post].
Qed.

Lemma contains_iff needle : forall s,
  contains needle s = true <-> exists pre post, s = pre ++ needle ++ post.
Proof.
  induction s as [| b s IH].
  - cbn [contains]. rewrite orb_false_r, startswith_iff. split.
    + intros (post & H). now exists "", post.
    + intros (pre & post & H). destruct pre as [| c pre]; [| discriminate].
      now exists post.
  - cbn [contains]. rewrite orb_true_iff, startswith_iff, IH. split.
    + intros [(post & H) | (pre & post & H)].
      * now exists "", post.
      * exists (String b pre), post. cbn. now rewrite H.
    + intros (pre & post & H). destruct pre as [| c pre].
      * left. now exists post.
      * right. cbn in H. injection H as -> ->. now exists pre, post.
Qed.

(** * Properties of [LLMCall.execute] *)

Section Execute.

Variable Input : Type.
Variable cfg : Config Input.
Variable input : Input.

(** *** One turn of the loop *)

Lemma attempt_backend_raises retry_count w e :
  llm cfg input (llm_calls w) = Raise e ->
  attempt cfg input retry_count w = (Raise e, after_call w).
Proof.
  intros H. unfold attempt, bind, llm_call. rewrite H. reflexivity.
Qed.

Lemma attempt_yes retry_count w r :
  llm cfg input (llm_calls w) = Ok r ->
  has_yes r = true ->
  attempt cfg input retry_count w =
  (Ok (Return (unit_output r)), after_add (after_response w r) r).
Proof.
  intros H Hy. unfold attempt, bind, llm_call, try_except. rewrite H.
  cbn. rewrite Hy. cbn. unfold unit_output. rewrite Hy. reflexivity.
Qed.

Lemma attempt_no retry_count w r :
  llm cfg input (llm_calls w) = Ok r ->
  has_yes r = false ->
  has_no r = true ->
  attempt cfg input retry_count w =
  (Ok (Return (unit_output r)), after_add (after_response w r) r).
Proof.
  intros H Hy Hn. unfold attempt, bind, llm_call, try_except. rewrite H.
  cbn. rewrite Hy, Hn. cbn. unfold unit_output. rewrite Hy. reflexivity.
Qed.

Lemma attempt_accepted retry_count w r :
  llm cfg input (llm_calls w) = Ok r ->
  has_yes r = true \/ has_no r = true ->
  attempt cfg input retry_count w =
  (Ok (Return (unit_output r)), after_add (after_response w r) r).
Proof.
  intros H [Hy | Hn].
  - now apply attempt_yes.
  - destruct (has_yes r) eqn:Hy.
    + now apply attempt_yes.
    + now apply attempt_no.
Qed.

Lemma attempt_rejected retry_count w r :
  llm cfg input (llm_calls w) = Ok r ->
  rejected r ->
  attempt cfg input retry_count w =
  (if retry_count =? max_retries cfg
   then Raise (InvalidOutputValueMismatch "Invalid response of LLM Call")
   else Ok (Next (retry_count + 1)),
   after_response w r).
Proof.
  intros H [Hy Hn]. unfold attempt, bind, llm_call, try_except. rewrite H.
  cbn. rewrite Hy, Hn. cbn.
  destruct (retry_count =? max_retries cfg); reflexivity.
Qed.


(** *** The loop and its runs *)

Lemma while_loop_sound fuel : forall retry_count w res w',
  while_loop cfg input fuel retry_count w = Some (res, w') ->
  loop_run cfg input retry_count w res w'.
Proof.
  induction fuel as [| fuel IH]; intros rc w res w' H; [discriminate |].
  cbn [while_loop] in H.
  destruct (Z.leb_spec rc (max_retries cfg)) as [Hle | Hgt].
  - destruct (llm cfg input (llm_calls w)) as [r | e] eqn:Hllm.
    + destruct (has_yes r) eqn:Hy; [| destruct (has_no r) eqn:Hn].
      * rewrite (attempt_yes rc w r Hllm Hy) in H. inversion H; subst.
        apply run_last, turn_accepted; auto.
      * rewrite (attempt_no rc w r Hllm Hy Hn) in H. inversion H; subst.
        apply run_last, turn_accepted; auto.
      * rewrite (attempt_rejected rc w r Hllm (conj Hy Hn)) in H.
        destruct (Z.eqb_spec rc (max_retries cfg)) as [Heq | Hne].
        -- inversion H; subst. apply run_last, turn_exhausted; [assumption | now split].
        -- apply run_retry with (r := r); [lia | assumption | now split | now apply IH].
    + rewrite (attempt_backend_raises rc w e Hllm) in H. inversion H; subst.
      apply run_last, turn_backend_raises; assumption.
  - inversion H; subst. apply run_last, turn_condition_false. assumption.
Qed.

Lemma last_turn_complete retry_count w res w' fuel :
  last_turn cfg input retry_count w res w' ->
  while_loop cfg input (S fuel) retry_count w = Some (res, w').
Proof.
  intros H. cbn [while_loop]. destruct H as [rc w Hgt | rc w e Hle Hllm | rc w r Hle Hllm Hm | w r Hllm Hrej].
  - destruct (Z.leb_spec rc (max_retries cfg)); [lia | reflexivity].
  - destruct (Z.leb_spec rc (max_retries cfg)); [| lia].
    now rewrite (attempt_backend_raises rc w e Hllm).
  - destruct (Z.leb_spec rc (max_retries cfg)); [| lia].
    now rewrite (attempt_accepted rc w r Hllm Hm).
  - rewrite Z.leb_refl, (attempt_rejected _ w r Hllm Hrej), Z.eqb_refl.
    reflexivity.
Qed.

Lemma while_loop_complete retry_count w res w' :
  loop_run cfg input retry_count w res w' ->
  forall fuel, (Z.to_nat (max_retries cfg + 1 - retry_count) < fuel)%nat ->
  while_loop cfg input fuel retry_count w = Some (res, w').
Proof.
  induction 1 as [rc w res w' Hlast | rc w r res w' Hlt Hllm Hrej Hrun IH];
    intros fuel Hfuel.
  - destruct fuel as [| fuel]; [lia |]. now apply last_turn_complete.
  - destruct fuel as [| fuel]; [lia |]. cbn [while_loop].
    destruct (Z.leb_spec rc (max_retries cfg)); [| lia].
    rewrite (attempt_rejected rc w r Hllm Hrej).
    destruct (Z.eqb_spec rc (max_retries cfg)); [lia |].
    apply IH. lia.
Qed.

Lemma loop_run_total n : forall retry_count w,
  (Z.to_nat (max_retries cfg + 1 - retry_count) <= n)%nat ->
  exists res w', loop_run cfg input retry_count w res w'.
Proof.
  induction n as [| n IH]; intros rc w Hn.
  - exists (Ok None), w. apply run_last, turn_condition_false. lia.
  - destruct (Z.leb_spec rc (max_retries cfg)) as [Hle | Hgt].
    2:{ exists (Ok None), w. now apply run_last, turn_condition_false. }
    destruct (llm cfg input (llm_calls w)) as [r | e] eqn:Hllm.
    2:{ exists (Raise e), (after_call w). now apply run_last, turn_backend_raises. }
    destruct (has_yes r) eqn:Hy.
    { eexists _, _. apply run_last, turn_accepted; eauto. }
    destruct (has_no r) eqn:Hno.
    { eexists _, _. apply run_last, turn_accepted; eauto. }
    destruct (Z.eq_dec rc (max_retries cfg)) as [-> | Hne].
    { eexists _, _. apply run_last, turn_exhausted; [eassumption | now split]. }
    destruct (IH (rc + 1) (after_response w r)) as (res & w' & Hrun); [lia |].
    exists res, w'. apply run_retry with (r := r); [lia | assumption | now split | assumption].
Qed.

(** [execute] and the runs of its loop are the same thing. *)
Lemma execute_loop_run w res w' :
  execute cfg input w = Some (res, w') <-> loop_run cfg input 0 w res w'.
Proof.
  unfold execute, execute_fuel. split.
  - apply while_loop_sound.
  - intros H. apply (while_loop_complete _ _ _ _ H). lia.
Qed.

(** [execute] always ends: the fuel it is given is enough. *)
Lemma execute_total w :
  exists res w', execute cfg input w = Some (res, w').
Proof.
  destruct (loop_run_total _ 0 w (Nat.le_refl _)) as (res & w' & H).
  exists res, w'. now apply execute_loop_run.
Qed.

(** More fuel changes nothing. *)
Lemma while_loop_fuel fuel retry_count w :
  (Z.to_nat (max_retries cfg + 1 - retry_count) < fuel)%nat ->
  while_loop cfg input fuel retry_count w =
  while_loop cfg input (S (Z.to_nat (max_retries cfg + 1 - retry_count)))
             retry_count w.
Proof.
  intros Hfuel.
  destruct (loop_run_total _ retry_count w (Nat.le_refl _)) as (res & w' & H).
  rewrite (while_loop_complete _ _ _ _ H fuel Hfuel).
  symmetry. apply (while_loop_complete _ _ _ _ H). lia.
Qed.

(** *** The world after a row of rejected responses *)

Lemma after_responses_snoc w rs r :
  after_responses w (rs ++ [r]) = after_response (after_responses w rs) r.
Proof. unfold after_responses. now rewrite fold_left_app. Qed.

Lemma llm_calls_after_responses rs : forall w,
  llm_calls (after_responses w rs) = (llm_calls w + length rs)%nat.
Proof.
  induction rs as [| r rs IH]; intros w; cbn.
  - lia.
  - unfold after_responses in IH. rewrite IH. cbn. lia.
Qed.


Lemma context_log_after_responses rs : forall w,
  context_log (after_responses w rs) = context_log w.
Proof.
  induction rs as [| r rs IH]; intros w; cbn.
  - reflexivity.
  - unfold after_responses in IH. now rewrite IH.
Qed.

Lemma events_after_responses rs : forall w,
  events (after_responses w rs) =
  (events w ++ attempt_events (llm_calls w) rs)%list.
Proof.
  induction rs as [| r rs IH]; intros w; cbn.
  - now rewrite app_nil_r.
  - unfold after_responses in IH. rewrite IH. cbn.
    now rewrite <- !app_assoc.
Qed.

Lemma attempt_events_app rs1 : forall c rs2,
  attempt_events c (rs1 ++ rs2) =
  (attempt_events c rs1 ++ attempt_events (c + length rs1) rs2)%list.
Proof.
  induction rs1 as [| r rs1 IH]; intros c rs2; cbn.
  - now rewrite Nat.add_0_r.
  - rewrite IH. now rewrite Nat.add_succ_r.
Qed.

Lemma feeds_nil c : feeds cfg input c [].
Proof. intros [| j] r Hj; discriminate. Qed.

Lemma feeds_cons c r rs :
  llm cfg input c = Ok r ->
  feeds cfg input (S c) rs ->
  feeds cfg input c (r :: rs).
Proof.
  intros H0 Hrs [| j] r' Hj; cbn in Hj.
  - inversion Hj; subst. now rewrite Nat.add_0_r.
  - rewrite Nat.add_succ_r. now apply (Hrs j).
Qed.

Lemma feeds_inv c r rs :
  feeds cfg input c (r :: rs) ->
  llm cfg input c = Ok r /\ feeds cfg input (S c) rs.
Proof.
  intros H. split.
  - rewrite <- (Nat.add_0_r c). now apply H.
  - intros j r' Hj. cbn. rewrite <- Nat.add_succ_r. now apply H.
Qed.

Lemma feeds_snoc c rs r :
  feeds cfg input c rs ->
  llm cfg input (c + length rs) = Ok r ->
  feeds cfg input c (rs ++ [r]).
Proof.
  intros Hrs Hr j r' Hj.
  destruct (Nat.lt_ge_cases j (length rs)) as [Hlt | Hge].
  - rewrite nth_error_app1 in Hj by assumption. now apply Hrs.
  - rewrite nth_error_app2 in Hj by assumption.
    destruct (j - length rs)%nat as [| d] eqn:Hd; cbn in Hj.
    + inversion Hj; subst. replace j with (length rs) by lia. assumption.
    + now destruct d.
Qed.

(** A run is a row of rejected responses, each followed by a retry, and a
    last turn. *)
Lemma loop_run_shape retry_count w res w' :
  loop_run cfg input retry_count w res w' ->
  exists rs,
    feeds cfg input (llm_calls w) rs /\
    Forall rejected rs /\
    (rs = [] \/ retry_count + Z.of_nat (length rs) <= max_retries cfg) /\
    last_turn cfg input (retry_count + Z.of_nat (length rs))
              (after_responses w rs) res w'.
Proof.
  induction 1 as [rc w res w' Hlast | rc w r res w' Hlt Hllm Hrej Hrun IH].
  - exists []. cbn. rewrite Z.add_0_r.
    repeat split; [| constructor | now left | assumption].
    intros [| j] r Hj; discriminate.
  - destruct IH as (rs & Hfeeds & Hall & Hlen & Hlast).
    exists (r :: rs). repeat split.
    + now apply feeds_cons.
    + now constructor.
    + right. destruct Hlen as [-> | Hlen]; cbn [length] in *; lia.
    + cbn [length after_responses fold_left].
      replace (rc + Z.of_nat (S (length rs))) with (rc + 1 + Z.of_nat (length rs)) by lia.
      assumption.
Qed.

Lemma loop_run_retries rs : forall retry_count w res w',
  feeds cfg input (llm_calls w) rs ->
  Forall rejected rs ->
  retry_count + Z.of_nat (length rs) <= max_retries cfg ->
  loop_run cfg input (retry_count + Z.of_nat (length rs))
           (after_responses w rs) res w' ->
  loop_run cfg input retry_count w res w'.
Proof.
  induction rs as [| r rs IH]; intros rc w res w' Hfeeds Hall Hle Hrun.
  - cbn in Hrun. now rewrite Z.add_0_r in Hrun.
  - apply feeds_inv in Hfeeds. destruct Hfeeds as [Hr Hfeeds].
    inversion Hall as [| ? ? Hrej Hall']; subst.
    cbn [length] in Hle, Hrun.
    apply run_retry with (r := r); [lia | assumption | assumption |].
    apply IH; [assumption | assumption | lia |].
    replace (rc + 1 + Z.of_nat (length rs)) with (rc + Z.of_nat (S (length rs))) by lia.
    assumption.
Qed.

Lemma last_turn_calls retry_count w res w' :
  last_turn cfg input retry_count w res w' ->
  retry_count <= max_retries cfg ->
  (llm_calls w < llm_calls w')%nat.
Proof. destruct 1; cbn; lia. Qed.

Lemma loop_run_calls retry_count w res w' :
  loop_run cfg input retry_count w res w' ->
  retry_count <= max_retries cfg ->
  (llm_calls w < llm_calls w')%nat.
Proof.
  induction 1 as [rc w res w' Hlast | rc w r res w' Hlt Hllm Hrej Hrun IH];
    intros Hle.
  - now apply (last_turn_calls rc w res w').
  - cbn in IH. lia.
Qed.

Lemma attempt_events_no_add k v rs : forall c,
  ~ In (EvAdd k v) (attempt_events c rs).
Proof.
  induction rs as [| r rs IH]; intros c; cbn.
  - tauto.
  - intros [H | [H | H]]; [discriminate | discriminate | now apply (IH (S c))].
Qed.

(** The run that ends at the turn answered after the rejected [rs]. *)
Lemma execute_after_retries w rs res w' :
  feeds cfg input (llm_calls w) rs ->
  Forall rejected rs ->
  Z.of_nat (length rs) <= max_retries cfg ->
  last_turn cfg input (Z.of_nat (length rs)) (after_responses w rs) res w' ->
  execute cfg input w = Some (res, w').
Proof.
  intros Hfeeds Hall Hle Hlast. apply execute_loop_run.
  apply (loop_run_retries rs 0 w res w' Hfeeds Hall Hle).
  now apply run_last.
Qed.


(** *** The claims on [execute] *)

(** C1, as amended.  At any attempt of a run, reached after the responses
    [rs] were rejected: a response with the marker [<Yes>], with or without
    [<No>] beside it, is accepted with verdict [true]; a response with
    neither marker ends the run with [InvalidOutputValueMismatch] on the
    last allowed attempt, and before that is followed by a further call of
    the backend. *)
Theorem only_markerless_responses_are_retried w rs r :
  feeds cfg input (llm_calls w) rs ->
  Forall rejected rs ->
  Z.of_nat (length rs) <= max_retries cfg ->
  llm cfg input (llm_calls w + length rs) = Ok r ->
  (has_yes r = true ->
     execute cfg input w =
     Some (Ok (Some (mkLogicUnitOutput true true "Code Generated Successfully"
                       [("content_type", "string"); ("value", r)])),
           after_add (after_response (after_responses w rs) r) r))
  /\ (rejected r -> Z.of_nat (length rs) = max_retries cfg ->
     execute cfg input w =
     Some (Raise (InvalidOutputValueMismatch "Invalid response of LLM Call"),
           after_response (after_responses w rs) r))
  /\ (rejected r -> Z.of_nat (length rs) < max_retries cfg ->
     exists res w',
       execute cfg input w = Some (res, w') /\
       (llm_calls w + length rs + 2 <= llm_calls w')%nat).
Proof.
  intros Hfeeds Hall Hle Hr.
  rewrite <- (llm_calls_after_responses rs w) in Hr.
  split; [| split].
  - intros Hy. apply (execute_after_retries w rs); try assumption.
    replace (mkLogicUnitOutput true _ _ _) with (unit_output r)
      by (unfold unit_output; now rewrite Hy).
    apply turn_accepted; auto.
  - intros Hrej Hlast. apply (execute_after_retries w rs); try assumption.
    rewrite Hlast. now apply turn_exhausted.
  - intros Hrej Hlt.
    destruct (loop_run_total _ (Z.of_nat (length (rs ++ [r])))
                (after_responses w (rs ++ [r])) (Nat.le_refl _))
      as (res & w' & Hrun).
    exists res, w'. split.
    + apply execute_loop_run.
      apply (loop_run_retries (rs ++ [r]) 0 w res w').
      * apply feeds_snoc; [assumption |].
        now rewrite <- (llm_calls_after_responses rs w).
      * apply Forall_app. split; [assumption | now constructor].
      * rewrite length_app. cbn. lia.
      * assumption.
    + apply loop_run_calls in Hrun.
      * rewrite llm_calls_after_responses, length_app in Hrun. cbn in Hrun. lia.
      * rewrite length_app. cbn. lia.
Qed.

(** C2, as amended.  For every retry limit [k >= 0] and every backend
    whose responses never hold a marker, [execute] calls the backend exactly
    [k + 1] times and then raises [InvalidOutputValueMismatch]; it returns no
    value and leaves the context's log as it was. *)
Theorem markerless_backend_exhausts_retries w :
  0 <= max_retries cfg ->
  (forall n, exists r, llm cfg input n = Ok r /\ rejected r) ->
  exists w',
    execute cfg input w =
    Some (Raise (InvalidOutputValueMismatch "Invalid response of LLM Call"), w') /\
    llm_calls w' = (llm_calls w + Z.to_nat (max_retries cfg) + 1)%nat /\
    context_log w' = context_log w.
Proof.
  intros Hk Hall.
  assert (Hgen : forall n retry_count v,
             0 <= retry_count <= max_retries cfg ->
             Z.to_nat (max_retries cfg - retry_count) = n ->
             exists v',
               loop_run cfg input retry_count v
                 (Raise (InvalidOutputValueMismatch "Invalid response of LLM Call")) v' /\
               llm_calls v' = (llm_calls v + n + 1)%nat /\
               context_log v' = context_log v).
  { induction n as [| n IH]; intros rc v Hrc Hn;
      destruct (Hall (llm_calls v)) as (r & Hr & Hrej).
    - assert (rc = max_retries cfg) as -> by lia.
      exists (after_response v r). repeat split.
      + now apply run_last, turn_exhausted.
      + cbn. lia.
    - destruct (IH (rc + 1) (after_response v r)) as (v' & Hrun & Hcalls & Hctx);
        [lia | lia |].
      exists v'. repeat split.
      + apply run_retry with (r := r); [lia | assumption | assumption | assumption].
      + rewrite Hcalls. cbn. lia.
      + rewrite Hctx. reflexivity. }
  destruct (Hgen (Z.to_nat (max_retries cfg)) 0 w) as (w' & Hrun & Hcalls & Hctx);
    [lia | f_equal; lia |].
  exists w'. repeat split; [now apply execute_loop_run | assumption | assumption].
Qed.

(** C3.  If the backend raises on an attempt, whether or not retries
    remain, [execute] raises that very exception and calls the backend no
    more: the call that raised is its last. *)
Theorem backend_exception_is_not_retried w rs e :
  feeds cfg input (llm_calls w) rs ->
  Forall rejected rs ->
  Z.of_nat (length rs) <= max_retries cfg ->
  llm cfg input (llm_calls w + length rs) = Raise e ->
  execute cfg input w = Some (Raise e, after_call (after_responses w rs)) /\
  llm_calls (after_call (after_responses w rs)) =
    (llm_calls w + length rs + 1)%nat.
Proof.
  intros Hfeeds Hall Hle He. split.
  - apply (execute_after_retries w rs); try assumption.
    apply turn_backend_raises; [assumption |].
    now rewrite llm_calls_after_responses.
  - cbn. rewrite llm_calls_after_responses. lia.
Qed.

(** C4.  A response that holds the affirmative marker [<Yes>] somewhere
    and the negative marker [<No>] nowhere makes [execute] succeed on that
    attempt with verdict [true]; one that holds [<No>] somewhere and [<Yes>]
    nowhere makes it succeed on that attempt with verdict [false].  In both
    cases the unit returns [success = true] and the response as payload. *)
Theorem single_marker_gives_verdict w rs r :
  feeds cfg input (llm_calls w) rs ->
  Forall rejected rs ->
  Z.of_nat (length rs) <= max_retries cfg ->
  llm cfg input (llm_calls w + length rs) = Ok r ->
  ((exists pre post, r = pre ++ "<Yes>" ++ post) /\
   ~ (exists pre post, r = pre ++ "<No>" ++ post) ->
     exists w',
       execute cfg input w =
       Some (Ok (Some (mkLogicUnitOutput true true "Code Generated Successfully"
                         [("content_type", "string"); ("value", r)])), w') /\
       llm_calls w' = (llm_calls w + length rs + 1)%nat)
  /\ ((exists pre post, r = pre ++ "<No>" ++ post) /\
      ~ (exists pre post, r = pre ++ "<Yes>" ++ post) ->
     exists w',
       execute cfg input w =
       Some (Ok (Some (mkLogicUnitOutput false true "Code Generated Successfully"
                         [("content_type", "string"); ("value", r)])), w') /\
       llm_calls w' = (llm_calls w + length rs + 1)%nat).
Proof.
  intros Hfeeds Hall Hle Hr.
  rewrite <- (llm_calls_after_responses rs w) in Hr.
  split; intros [Hin Hout];
    exists (after_add (after_response (after_responses w rs) r) r).
  - apply contains_iff in Hin. fold (has_yes r) in Hin. split.
    + apply (execute_after_retries w rs); try assumption.
      replace (mkLogicUnitOutput true _ _ _) with (unit_output r)
        by (unfold unit_output; now rewrite Hin).
      apply turn_accepted; auto.
    + cbn. rewrite llm_calls_after_responses. lia.
  - apply contains_iff in Hin. fold (has_no r) in Hin.
    assert (Hy : has_yes r = false).
    { destruct (has_yes r) eqn:Hy; [| reflexivity].
      exfalso. apply Hout. now apply contains_iff. }
    split.
    + apply (execute_after_retries w rs); try assumption.
      replace (mkLogicUnitOutput false _ _ _) with (unit_output r)
        by (unfold unit_output; now rewrite Hy).
      apply turn_accepted; auto.
    + cbn. rewrite llm_calls_after_responses. lia.
Qed.

(** C5.  After a successful [execute] the context's log is the one
    before with one more entry, [("llm_call", response)], where [response]
    is the raw text of the accepted response; the rejected attempts before
    it left calls and logger notifications only, and the entry is added
    after all of them.  The value returned has [success = true], the message
    "Code Generated Successfully" and the payload
    [{content_type: "string", value: response}]. *)
Theorem success_adds_one_context_entry w out w' :
  execute cfg input w = Some (Ok (Some out), w') ->
  exists rs r,
    feeds cfg input (llm_calls w) (rs ++ [r]) /\
    Forall rejected rs /\
    context_log w' = (context_log w ++ [("llm_call", r)])%list /\
    events w' =
      (events w ++ attempt_events (llm_calls w) (rs ++ [r])
                ++ [EvAdd "llm_call" r])%list /\
    success out = true /\
    message out = "Code Generated Successfully" /\
    metadata out = [("content_type", "string"); ("value", r)].
Proof.
  intros H. apply execute_loop_run, loop_run_shape in H.
  destruct H as (rs & Hfeeds & Hall & Hlen & Hlast).
  inversion Hlast as [| | rc v r Hle Hr Hm |]; subst.
  exists rs, r. repeat split.
  - apply feeds_snoc; [assumption |].
    now rewrite <- (llm_calls_after_responses rs w).
  - assumption.
  - cbn. now rewrite context_log_after_responses.
  - cbn. rewrite events_after_responses, attempt_events_app. cbn.
    rewrite llm_calls_after_responses. now rewrite <- !app_assoc.
Qed.

(** C6, as amended.  When [execute] fails although the last call of the
    backend gave a response, that response held no marker, the retries are
    used up, and the error raised is [InvalidOutputValueMismatch] with the
    fixed message "Invalid response of LLM Call": it names neither the
    response nor the retry count.  The response is the last text given to
    the logger. *)
Theorem exhaustion_raises_fixed_message w e w' r :
  execute cfg input w = Some (Raise e, w') ->
  llm cfg input (pred (llm_calls w')) = Ok r ->
  e = InvalidOutputValueMismatch "Invalid response of LLM Call" /\
  rejected r /\
  Z.of_nat (llm_calls w') = Z.of_nat (llm_calls w) + max_retries cfg + 1 /\
  exists logs, logger_logs w' = (logs ++ [log_message r])%list.
Proof.
  intros H Hlastcall. apply execute_loop_run, loop_run_shape in H.
  destruct H as (rs & Hfeeds & Hall & Hlen & Hlast).
  inversion Hlast as [| rc v e' Hle He | | v r' Hr Hrej Hmax]; subst.
  - cbn in Hlastcall. congruence.
  - cbn in Hlastcall. rewrite Hr in Hlastcall. inversion Hlastcall; subst.
    repeat split; try apply Hrej.
    + cbn [after_response llm_calls]. rewrite llm_calls_after_responses. lia.
    + now exists (logger_logs (after_responses w rs)).
Qed.


(** C9.  Whenever [execute] raises, be it the backend's exception or the
    validation error after the last attempt, the context's log is what it
    was before the call, and no [add] was asked of the context. *)
Theorem raise_leaves_context_untouched w e w' :
  execute cfg input w = Some (Raise e, w') ->
  context_log w' = context_log w /\
  exists evs,
    events w' = (events w ++ evs)%list /\
    forall key value, ~ In (EvAdd key value) evs.
Proof.
  intros H. apply execute_loop_run, loop_run_shape in H.
  destruct H as (rs & Hfeeds & Hall & Hlen & Hlast).
  inversion Hlast as [| rc v e' Hle He | | v r Hr Hrej Hmax]; subst.
  - split; [cbn; apply context_log_after_responses |].
    exists (attempt_events (llm_calls w) rs ++ [EvCall (llm_calls w + length rs)])%list.
    split.
    + cbn. rewrite events_after_responses, llm_calls_after_responses.
      now rewrite <- app_assoc.
    + intros key value Hin. apply in_app_or in Hin. destruct Hin as [Hin | Hin].
      * now apply attempt_events_no_add in Hin.
      * destruct Hin as [Hin | []]. discriminate.
  - split; [cbn; apply context_log_after_responses |].
    exists (attempt_events (llm_calls w) (rs ++ [r])).
    split.
    + cbn. rewrite events_after_responses, attempt_events_app. cbn.
      rewrite llm_calls_after_responses. now rewrite <- !app_assoc.
    + intros key value Hin. now apply attempt_events_no_add in Hin.
Qed.



End Execute.

(** * Concrete runs *)

Ltac feed := repeat (apply feeds_cons; [reflexivity |]); apply feeds_nil.

Ltac all_rejected := repeat (constructor; [split; reflexivity |]); constructor.

(** The scenario of the spec: two rejected attempts, then success on the
    third with verdict [true]; the context holds the final response only. *)
Example third_attempt_yes_run :
  execute third_attempt_yes prompt empty_world =
  Some (Ok (Some (unit_output "<Yes> looks correct")),
        after_add (after_responses empty_world
                     ["garbage"; "garbage"; "<Yes> looks correct"])
                  "<Yes> looks correct").
Proof. reflexivity. Qed.

(** C1, the claim as stated fails: with [maxRetries = 1] and a backend that
    always answers "<Yes><No>", a response the spec calls malformed, the unit
    makes one attempt and succeeds with verdict [true]; it does not make two
    attempts and raise. *)
Lemma both_markers_accepted_at_once :
  spec_malformed "<Yes><No>" = true /\
  execute both_markers prompt empty_world =
    Some (Ok (Some (unit_output "<Yes><No>")),
          after_add (after_response empty_world "<Yes><No>") "<Yes><No>") /\
  output (unit_output "<Yes><No>") = true /\
  llm_calls (after_add (after_response empty_world "<Yes><No>") "<Yes><No>") = 1%nat /\
  ~ (exists e w', execute both_markers prompt empty_world = Some (Raise e, w')).
Proof.
  repeat split. intros (e & w' & H). vm_compute in H. discriminate.
Qed.

Lemma only_markerless_responses_are_retried_witness :
  feeds third_attempt_yes prompt 0 ["garbage"; "garbage"] /\
  Forall rejected ["garbage"; "garbage"] /\
  2 <= max_retries third_attempt_yes /\
  llm third_attempt_yes prompt 2 = Ok "<Yes> looks correct" /\
  has_yes "<Yes> looks correct" = true /\
  execute third_attempt_yes prompt empty_world =
    Some (Ok (Some (mkLogicUnitOutput true true "Code Generated Successfully"
                      [("content_type", "string");
                       ("value", "<Yes> looks correct")])),
          after_add (after_response (after_responses empty_world
                                       ["garbage"; "garbage"])
                                    "<Yes> looks correct")
                    "<Yes> looks correct").
Proof.
  assert (Hfeeds : feeds third_attempt_yes prompt 0 ["garbage"; "garbage"]) by feed.
  assert (Hall : Forall rejected ["garbage"; "garbage"]) by all_rejected.
  assert (Hle : 2 <= max_retries third_attempt_yes) by (cbn; lia).
  refine (conj Hfeeds (conj Hall (conj Hle (conj eq_refl (conj eq_refl _))))).
  exact (proj1 (only_markerless_responses_are_retried string third_attempt_yes
                  prompt empty_world ["garbage"; "garbage"]
                  "<Yes> looks correct" Hfeeds Hall Hle eq_refl) eq_refl).
Defined.

(** C2, the claim as stated fails: every response of this backend holds
    both markers, malformed in the spec's sense, and with [maxRetries = 2]
    the unit calls the backend once and returns a verdict instead of calling
    it three times and raising. *)
Lemma both_markers_never_exhaust :
  (forall n, exists r,
      llm no_then_yes prompt n = Ok r /\ spec_malformed r = true) /\
  execute no_then_yes prompt empty_world =
    Some (Ok (Some (unit_output "<No> or rather <Yes>")),
          after_add (after_response empty_world "<No> or rather <Yes>")
                    "<No> or rather <Yes>") /\
  llm_calls (after_add (after_response empty_world "<No> or rather <Yes>")
                       "<No> or rather <Yes>") = 1%nat /\
  ~ (exists e w', execute no_then_yes prompt empty_world = Some (Raise e, w')).
Proof.
  repeat split.
  - intros n. exists "<No> or rather <Yes>". split; reflexivity.
  - intros (e & w' & H). vm_compute in H. discriminate.
Qed.

Lemma markerless_backend_exhausts_retries_witness :
  0 <= max_retries (markerless 3 "garbage") /\
  (forall n, exists r,
      llm (markerless 3 "garbage") prompt n = Ok r /\ rejected r) /\
  exists w',
    execute (markerless 3 "garbage") prompt empty_world =
    Some (Raise (InvalidOutputValueMismatch "Invalid response of LLM Call"), w') /\
    llm_calls w' = 4%nat /\
    context_log w' = [].
Proof.
  assert (Hk : 0 <= max_retries (markerless 3 "garbage")) by (cbn; lia).
  assert (Hall : forall n, exists r,
             llm (markerless 3 "garbage") prompt n = Ok r /\ rejected r).
  { intros n. exists "garbage". repeat split. }
  refine (conj Hk (conj Hall _)).
  exact (markerless_backend_exhausts_retries string (markerless 3 "garbage")
           prompt empty_world Hk Hall).
Defined.

Lemma backend_exception_is_not_retried_witness :
  feeds transport_down prompt 0 ["garbage"] /\
  Forall rejected ["garbage"] /\
  1 < max_retries transport_down /\
  llm transport_down prompt 1 =
    Raise (CollaboratorError "TransportError" "connection reset") /\
  execute transport_down prompt empty_world =
    Some (Raise (CollaboratorError "TransportError" "connection reset"),
          after_call (after_responses empty_world ["garbage"])) /\
  llm_calls (after_call (after_responses empty_world ["garbage"])) = 2%nat.
Proof.
  assert (Hfeeds : feeds transport_down prompt 0 ["garbage"]) by feed.
  assert (Hall : Forall rejected ["garbage"]) by all_rejected.
  assert (Hle : 1 <= max_retries transport_down) by (cbn; lia).
  assert (Hlt : 1 < max_retries transport_down) by (cbn; lia).
  refine (conj Hfeeds (conj Hall (conj Hlt (conj eq_refl _)))).
  exact (backend_exception_is_not_retried string transport_down prompt
           empty_world ["garbage"] _ Hfeeds Hall Hle eq_refl).
Defined.

Lemma single_marker_gives_verdict_witness :
  (feeds third_attempt_yes prompt 0 ["garbage"; "garbage"] /\
   Forall rejected ["garbage"; "garbage"] /\
   2 <= max_retries third_attempt_yes /\
   llm third_attempt_yes prompt 2 = Ok "<Yes> looks correct" /\
   ((exists pre post, "<Yes> looks correct" = pre ++ "<Yes>" ++ post) /\
    ~ (exists pre post, "<Yes> looks correct" = pre ++ "<No>" ++ post)) /\
   exists w',
     execute third_attempt_yes prompt empty_world =
     Some (Ok (Some (mkLogicUnitOutput true true "Code Generated Successfully"
                       [("content_type", "string");
                        ("value", "<Yes> looks correct")])), w') /\
     llm_calls w' = 3%nat)
  /\
  (feeds second_attempt_no prompt 0 ["garbage"] /\
   Forall rejected ["garbage"] /\
   1 <= max_retries second_attempt_no /\
   llm second_attempt_no prompt 1 = Ok "The code is wrong: <No>" /\
   ((exists pre post, "The code is wrong: <No>" = pre ++ "<No>" ++ post) /\
    ~ (exists pre post, "The code is wrong: <No>" = pre ++ "<Yes>" ++ post)) /\
   exists w',
     execute second_attempt_no prompt empty_world =
     Some (Ok (Some (mkLogicUnitOutput false true "Code Generated Successfully"
                       [("content_type", "string");
                        ("value", "The code is wrong: <No>")])), w') /\
     llm_calls w' = 2%nat).
Proof.
  assert (Hfeeds : feeds third_attempt_yes prompt 0 ["garbage"; "garbage"]) by feed.
  assert (Hall : Forall rejected ["garbage"; "garbage"]) by all_rejected.
  assert (Hle : 2 <= max_retries third_attempt_yes) by (cbn; lia).
  assert (Hyes : (exists pre post, "<Yes> looks correct" = pre ++ "<Yes>" ++ post) /\
                 ~ (exists pre post, "<Yes> looks correct" = pre ++ "<No>" ++ post)).
  { split.
    - now exists "", " looks correct".
    - intros H. apply contains_iff in H. discriminate. }
  assert (Hfeeds' : feeds second_attempt_no prompt 0 ["garbage"]) by feed.
  assert (Hall' : Forall rejected ["garbage"]) by all_rejected.
  assert (Hle' : 1 <= max_retries second_attempt_no) by (cbn; lia).
  assert (Hno : (exists pre post, "The code is wrong: <No>" = pre ++ "<No>" ++ post) /\
                ~ (exists pre post, "The code is wrong: <No>" = pre ++ "<Yes>" ++ post)).
  { split.
    - now exists "The code is wrong: ", "".
    - intros H. apply contains_iff in H. discriminate. }
  split.
  - refine (conj Hfeeds (conj Hall (conj Hle (conj eq_refl (conj Hyes _))))).
    exact (proj1 (single_marker_gives_verdict string third_attempt_yes prompt
                    empty_world ["garbage"; "garbage"] "<Yes> looks correct"
                    Hfeeds Hall Hle eq_refl) Hyes).
  - refine (conj Hfeeds' (conj Hall' (conj Hle' (conj eq_refl (conj Hno _))))).
    exact (proj2 (single_marker_gives_verdict string second_attempt_no prompt
                    empty_world ["garbage"] "The code is wrong: <No>"
                    Hfeeds' Hall' Hle' eq_refl) Hno).
Defined.

Lemma success_adds_one_context_entry_witness :
  execute third_attempt_yes prompt empty_world =
    Some (Ok (Some (unit_output "<Yes> looks correct")),
          after_add (after_responses empty_world
                       ["garbage"; "garbage"; "<Yes> looks correct"])
                    "<Yes> looks correct") /\
  exists rs r,
    feeds third_attempt_yes prompt 0 (rs ++ [r]) /\
    Forall rejected rs /\
    context_log (after_add (after_responses empty_world
                              ["garbage"; "garbage"; "<Yes> looks correct"])
                           "<Yes> looks correct") =
      ([] ++ [("llm_call", r)])%list /\
    events (after_add (after_responses empty_world
                         ["garbage"; "garbage"; "<Yes> looks correct"])
                      "<Yes> looks correct") =
      ([] ++ attempt_events 0 (rs ++ [r]) ++ [EvAdd "llm_call" r])%list /\
    success (unit_output "<Yes> looks correct") = true /\
    message (unit_output "<Yes> looks correct") = "Code Generated Successfully" /\
    metadata (unit_output "<Yes> looks correct") =
      [("content_type", "string"); ("value", r)].
Proof.
  refine (conj eq_refl _).
  exact (success_adds_one_context_entry string third_attempt_yes prompt
           empty_world _ _ eq_refl).
Defined.

(** C6, the claim as stated fails: a run with retry limit 0 that ends on
    the response "garbage" and a run with retry limit 1 that ends on the
    response "nonsense" raise one and the same error, and its only text
    holds neither response. *)
Lemma exhaustion_error_hides_response :
  exists e w1 w2,
    execute (markerless 0 "garbage") prompt empty_world = Some (Raise e, w1) /\
    execute (markerless 1 "nonsense") prompt empty_world = Some (Raise e, w2) /\
    llm (markerless 0 "garbage") prompt (pred (llm_calls w1)) = Ok "garbage" /\
    llm (markerless 1 "nonsense") prompt (pred (llm_calls w2)) = Ok "nonsense" /\
    exception_args e = ["Invalid response of LLM Call"] /\
    contains "garbage" "Invalid response of LLM Call" = false /\
    contains "nonsense" "Invalid response of LLM Call" = false.
Proof.
  exists (InvalidOutputValueMismatch "Invalid response of LLM Call"),
         (after_responses empty_world ["garbage"]),
         (after_responses empty_world ["nonsense"; "nonsense"]).
  repeat split.
Qed.

Lemma exhaustion_raises_fixed_message_witness :
  execute (markerless 1 "nonsense") prompt empty_world =
    Some (Raise (InvalidOutputValueMismatch "Invalid response of LLM Call"),
          after_responses empty_world ["nonsense"; "nonsense"]) /\
  llm (markerless 1 "nonsense") prompt
      (pred (llm_calls (after_responses empty_world ["nonsense"; "nonsense"]))) =
    Ok "nonsense" /\
  InvalidOutputValueMismatch "Invalid response of LLM Call" =
    InvalidOutputValueMismatch "Invalid response of LLM Call" /\
  rejected "nonsense" /\
  Z.of_nat (llm_calls (after_responses empty_world ["nonsense"; "nonsense"])) =
    Z.of_nat (llm_calls empty_world) + max_retries (markerless 1 "nonsense") + 1 /\
  exists logs,
    logger_logs (after_responses empty_world ["nonsense"; "nonsense"]) =
    (logs ++ [log_message "nonsense"])%list.
Proof.
  refine (conj eq_refl (conj eq_refl _)).
  exact (exhaustion_raises_fixed_message string (markerless 1 "nonsense") prompt
           empty_world _ _ "nonsense" eq_refl eq_refl).
Defined.


Lemma raise_leaves_context_untouched_witness :
  execute transport_down prompt empty_world =
    Some (Raise (CollaboratorError "TransportError" "connection reset"),
          after_call (after_responses empty_world ["garbage"])) /\
  context_log (after_call (after_responses empty_world ["garbage"])) = [] /\
  exists evs,
    events (after_call (after_responses empty_world ["garbage"])) =
      ([] ++ evs)%list /\
    forall key value, ~ In (EvAdd key value) evs.
Proof.
  refine (conj eq_refl _).
  exact (raise_leaves_context_untouched string transport_down prompt
           empty_world _ _ eq_refl).
Defined.

(** * The callbacks *)

(** C10.  For every text, [on_code] of a [BaseCallBack] raises
    [MethodNotImplementedError] and prints nothing, the exception being the
    outcome of the call; [on_code] of a [StdoutCallBack] raises nothing and
    prints the text on a line of its own. *)
Theorem on_code_needs_an_implementation (response stdout : string) :
  on_code BaseCallBack_new response stdout =
    (Raise (MethodNotImplementedError "Must have implemented this."), stdout) /\
  on_code StdoutCallBack_new response stdout =
    (Ok tt, stdout ++ response ++ nl).
Proof. split; reflexivity. Qed.

(** * The constructor of [AzureOpenAI] *)

Lemma init_raised_cases cls api_token api_base api_version deployment_name
    chat kwargs getenv_proxy :
  raised (AzureOpenAI_init cls api_token api_base api_version deployment_name
            chat kwargs getenv_proxy) =
  raised (AzureOpenAI_init cls None None None deployment_name
            false [] None).
Proof.
  destruct cls as [[| [t |]] [| [b |]] [| [v |]]], deployment_name;
    reflexivity.
Qed.

(** C7, where the code departs from the claim.  The three credential
    checks read [self.api_token], [self.api_base] and [self.api_version],
    which [__init__] never sets from its arguments: whether the construction
    raises, and what, is the same whatever is passed as [api_token],
    [api_base] and [api_version], present or missing. *)
Theorem init_checks_ignore_credentials cls
    (api_token api_base api_version : option string)
    (api_token' api_base' api_version' : option string)
    deployment_name chat kwargs getenv_proxy :
  raised (AzureOpenAI_init cls api_token api_base api_version deployment_name
            chat kwargs getenv_proxy) =
  raised (AzureOpenAI_init cls api_token' api_base' api_version' deployment_name
            chat kwargs getenv_proxy).
Proof.
  rewrite init_raised_cases. symmetry. apply init_raised_cases.
Qed.

(** With the class as the sources show it, a construction with all four
    arguments present fails on the first check, with [AttributeError]. *)
Example init_all_present_annotations_only :
  AzureOpenAI_init annotations_only (Some "key")
    (Some "https://example.openai.azure.com/") (Some "2023-05-15")
    (Some "gpt-35") true [] None =
  Raise (AttributeError "'AzureOpenAI' object has no attribute 'api_token'").
Proof. reflexivity. Qed.

(** With [None] inherited for the three names, a construction with all four
    arguments present is refused for a missing key. *)
Example init_all_present_defaults_None :
  raised (AzureOpenAI_init defaults_None (Some "key")
            (Some "https://example.openai.azure.com/") (Some "2023-05-15")
            (Some "gpt-35") true [] None) =
  Some (APIKeyNotFoundError
          "Azure OpenAI key is required. Please add an environment variable `OPENAI_API_KEY` or pass `api_token` as a named parameter").
Proof. reflexivity. Qed.

(** With texts inherited for the three names, a construction without key,
    endpoint and version goes through, and the router is given none of
    them. *)
Example init_nothing_passed_defaults_set :
  AzureOpenAI_init defaults_set None None None (Some "gpt-35") true [] None =
  Ok (mkAzureOpenAI
        [mkDeployment "gpt-3.5-turbo"
           (mkLitellmParams "azure/gpt-35" None None None) 240000 1800]
        true "gpt-35" None).
Proof. reflexivity. Qed.

(** The check of the deployment name does read the argument: once the three
    lookups give a value, a missing name is refused with
    [MissingModelError], and a present one is accepted. *)
Lemma init_deployment_name_checked t b v api_token api_base api_version
    deployment_name chat kwargs getenv_proxy :
  raised (AzureOpenAI_init
            (mkClassAttributes (Value (Some t)) (Value (Some b)) (Value (Some v)))
            api_token api_base api_version deployment_name chat kwargs
            getenv_proxy) =
  match deployment_name with
  | None => Some (MissingModelError "No deployment name provided."
                    "Please include deployment name from Azure dashboard.")
  | Some _ => None
  end.
Proof. destruct deployment_name; reflexivity. Qed.

(** * Further properties of [LLMCall.execute] *)

Section ExecuteMore.

Variable Input : Type.
Variable cfg : Config Input.
Variable input : Input.

(** X1.  [execute] ends for every backend and every retry limit, and by
    then has called the backend at most [max_retries + 1] times (not at all
    under a negative limit). *)
Theorem execute_ends_within_call_bound w :
  exists res w',
    execute cfg input w = Some (res, w') /\
    (llm_calls w <= llm_calls w')%nat /\
    Z.of_nat (llm_calls w' - llm_calls w) <= Z.max 0 (max_retries cfg + 1).
Proof.
  destruct (execute_total Input cfg input w) as (res & w' & H).
  exists res, w'. split; [assumption |].
  apply execute_loop_run, loop_run_shape in H.
  destruct H as (rs & Hfeeds & Hall & Hlen & Hlast).
  assert (Hrs := llm_calls_after_responses rs w).
  inversion Hlast as [rc v Hgt | rc v e Hle He | rc v r Hle Hr Hm | v r Hr Hrej Hmax];
    subst; cbn [after_call after_response after_add llm_calls];
    destruct Hlen as [-> | Hlen]; cbn [length] in *; lia.
Qed.

(** X2.  Under a negative retry limit the loop body never runs: [execute]
    returns [None] and leaves backend, logger and context untouched. *)
Theorem negative_limit_returns_None w :
  max_retries cfg < 0 ->
  execute cfg input w = Some (Ok None, w).
Proof.
  intros Hneg. apply execute_loop_run, run_last, turn_condition_false.
  assumption.
Qed.

(** X3.  Under a retry limit [>= 0], [execute] calls the backend at least
    once and never falls out of the loop: it returns a [LogicUnitOutput] or
    raises, never [None]. *)
Theorem nonnegative_limit_never_returns_None w :
  0 <= max_retries cfg ->
  exists res w',
    execute cfg input w = Some (res, w') /\
    res <> Ok None /\
    (llm_calls w < llm_calls w')%nat.
Proof.
  intros Hk. destruct (execute_total Input cfg input w) as (res & w' & H).
  exists res, w'. split; [assumption |].
  apply execute_loop_run in H. split.
  - apply loop_run_shape in H.
    destruct H as (rs & Hfeeds & Hall & Hlen & Hlast).
    inversion Hlast as [rc v Hgt | | |]; subst; try discriminate.
    destruct Hlen as [-> | Hlen]; cbn [length] in *; lia.
  - now apply (loop_run_calls Input cfg input 0 w res w').
Qed.

(** X4.  On success the verdict can be read off the payload: it is [true]
    exactly when the returned text holds [<Yes>], and when it is [false] the
    text holds [<No>]; the same text is the last entry of the context's log
    and the last message given to the logger. *)
Theorem verdict_matches_payload w out w' :
  execute cfg input w = Some (Ok (Some out), w') ->
  exists r ctx logs,
    metadata out = [("content_type", "string"); ("value", r)] /\
    output out = has_yes r /\
    (output out = false -> has_no r = true) /\
    context_log w' = (ctx ++ [("llm_call", r)])%list /\
    logger_logs w' = (logs ++ [log_message r])%list.
Proof.
  intros H. apply execute_loop_run, loop_run_shape in H.
  destruct H as (rs & Hfeeds & Hall & Hlen & Hlast).
  inversion Hlast as [| | rc v r Hle Hr Hm |]; subst.
  exists r, (context_log (after_responses w rs)),
         (logger_logs (after_responses w rs)).
  repeat split. cbn. intros Hy. destruct Hm as [Hm | Hm]; congruence.
Qed.

(** Lowering the limit by one is the same as starting one retry later. *)
Lemma while_loop_one_retry_less fuel : forall retry_count w,
  while_loop cfg input fuel (retry_count + 1) w =
  while_loop (one_retry_less cfg) input fuel retry_count w.
Proof.
  induction fuel as [| fuel IH]; intros rc w; [reflexivity |].
  cbn [while_loop one_retry_less max_retries].
  replace (rc <=? max_retries cfg - 1) with (rc + 1 <=? max_retries cfg)
    by (destruct (Z.leb_spec (rc + 1) (max_retries cfg)),
                 (Z.leb_spec rc (max_retries cfg - 1)); lia || reflexivity).
  destruct (rc + 1 <=? max_retries cfg); [| reflexivity].
  destruct (llm cfg input (llm_calls w)) as [r | e] eqn:Hllm.
  - destruct (has_yes r) eqn:Hy; [| destruct (has_no r) eqn:Hn].
    + rewrite (attempt_yes Input cfg input _ w r Hllm Hy).
      now rewrite (attempt_yes Input (one_retry_less cfg) input _ w r Hllm Hy).
    + rewrite (attempt_no Input cfg input _ w r Hllm Hy Hn).
      now rewrite (attempt_no Input (one_retry_less cfg) input _ w r Hllm Hy Hn).
    + rewrite (attempt_rejected Input cfg input _ w r Hllm (conj Hy Hn)).
      rewrite (attempt_rejected Input (one_retry_less cfg) input _ w r Hllm
                 (conj Hy Hn)).
      cbn [one_retry_less max_retries].
      replace (rc =? max_retries cfg - 1) with (rc + 1 =? max_retries cfg)
        by (destruct (Z.eqb_spec (rc + 1) (max_retries cfg)),
                     (Z.eqb_spec rc (max_retries cfg - 1)); lia || reflexivity).
      destruct (rc + 1 =? max_retries cfg); [reflexivity |].
      apply IH.
  - rewrite (attempt_backend_raises Input cfg input _ w e Hllm).
    now rewrite (attempt_backend_raises Input (one_retry_less cfg) input _ w e Hllm).
Qed.

Lemma while_loop_retry_step fuel retry_count w r :
  retry_count < max_retries cfg ->
  llm cfg input (llm_calls w) = Ok r ->
  rejected r ->
  while_loop cfg input (S fuel) retry_count w =
  while_loop cfg input fuel (retry_count + 1) (after_response w r).
Proof.
  intros Hlt Hr Hrej. cbn [while_loop].
  destruct (Z.leb_spec retry_count (max_retries cfg)); [| lia].
  rewrite (attempt_rejected Input cfg input retry_count w r Hr Hrej).
  destruct (Z.eqb_spec retry_count (max_retries cfg)); [lia | reflexivity].
Qed.

(** X5.  A rejected response costs exactly one retry: when the first
    response holds no marker and a retry is left, the run goes on as a run
    of its own with the retry limit lowered by one. *)
Theorem rejected_response_costs_one_retry w r :
  0 < max_retries cfg ->
  llm cfg input (llm_calls w) = Ok r ->
  rejected r ->
  execute cfg input w =
  execute (one_retry_less cfg) input (after_response w r).
Proof.
  intros Hk Hr Hrej. unfold execute, execute_fuel.
  cbn [one_retry_less max_retries].
  replace (Z.to_nat (max_retries cfg + 1))
    with (S (Z.to_nat (max_retries cfg - 1 + 1))) by lia.
  rewrite (while_loop_retry_step _ 0 w r) by (assumption || lia).
  apply (while_loop_one_retry_less _ 0).
Qed.

End ExecuteMore.

(** ** What [execute] looks at *)

Section Lookahead.

Variable Input : Type.
Variables cfg cfg' : Config Input.
Variable input : Input.

Hypothesis same_limit : max_retries cfg' = max_retries cfg.

Lemma attempt_same_answer retry_count w :
  llm cfg' input (llm_calls w) = llm cfg input (llm_calls w) ->
  attempt cfg' input retry_count w = attempt cfg input retry_count w.
Proof.
  intros H. unfold attempt, bind, llm_call, try_except.
  now rewrite H, same_limit.
Qed.

Lemma while_loop_same_answers fuel : forall retry_count w,
  (forall j : nat,
      Z.of_nat j <= max_retries cfg - retry_count ->
      llm cfg' input (llm_calls w + j) = llm cfg input (llm_calls w + j)) ->
  while_loop cfg' input fuel retry_count w =
  while_loop cfg input fuel retry_count w.
Proof.
  induction fuel as [| fuel IH]; intros rc w Hsame; [reflexivity |].
  cbn [while_loop]. rewrite same_limit.
  destruct (Z.leb_spec rc (max_retries cfg)) as [Hle | Hgt]; [| reflexivity].
  rewrite attempt_same_answer
    by (rewrite <- (Nat.add_0_r (llm_calls w)); apply Hsame; lia).
  destruct (llm cfg input (llm_calls w)) as [r | e] eqn:Hllm.
  - destruct (has_yes r) eqn:Hy; [| destruct (has_no r) eqn:Hn].
    + now rewrite (attempt_yes Input cfg input rc w r Hllm Hy).
    + now rewrite (attempt_no Input cfg input rc w r Hllm Hy Hn).
    + rewrite (attempt_rejected Input cfg input rc w r Hllm (conj Hy Hn)).
      destruct (Z.eqb_spec rc (max_retries cfg)); [reflexivity |].
      apply IH. intros j Hj. cbn [after_response llm_calls].
      rewrite Nat.add_succ_comm. apply Hsame. lia.
  - now rewrite (attempt_backend_raises Input cfg input rc w e Hllm).
Qed.

(** X7.  [execute] looks at no more than the next [max_retries + 1]
    answers of the backend: two backends that agree on them, under the same
    retry limit, give the same outcome and the same final world. *)
Theorem execute_reads_only_allowed_answers w :
  (forall j : nat,
      Z.of_nat j <= max_retries cfg ->
      llm cfg' input (llm_calls w + j) = llm cfg input (llm_calls w + j)) ->
  execute cfg' input w = execute cfg input w.
Proof.
  intros Hsame. unfold execute, execute_fuel. rewrite same_limit.
  apply while_loop_same_answers. intros j Hj. apply Hsame. lia.
Qed.

End Lookahead.

(** * The markers *)

(** X8.  The tests [["<Yes>" in response]] and [["<No>" in response]] of
    [execute] hold exactly for the responses that can be cut into a text,
    the marker, and a text; so a response is rejected exactly when it can be
    cut around neither marker. *)
Theorem markers_are_substrings (response : string) :
  (has_yes response = true <->
   exists pre post, response = pre ++ "<Yes>" ++ post) /\
  (has_no response = true <->
   exists pre post, response = pre ++ "<No>" ++ post) /\
  (rejected response <->
   ~ (exists pre post, response = pre ++ "<Yes>" ++ post) /\
   ~ (exists pre post, response = pre ++ "<No>" ++ post)).
Proof.
  unfold rejected, has_yes, has_no.
  rewrite <- !contains_iff.
  destruct (contains "<Yes>" response), (contains "<No>" response);
    intuition congruence.
Qed.

(** * Further properties of [AzureOpenAI] *)

Lemma init_Ok_inv cls api_token api_base api_version deployment_name
    chat kwargs getenv_proxy self :
  AzureOpenAI_init cls api_token api_base api_version deployment_name chat
    kwargs getenv_proxy = Ok self ->
  exists t b v name,
    cls = mkClassAttributes (Value (Some t)) (Value (Some b)) (Value (Some v)) /\
    deployment_name = Some name /\
    self = mkAzureOpenAI
             [mkDeployment "gpt-3.5-turbo"
                (mkLitellmParams ("azure/" ++ name) api_token api_version api_base)
                240000 1800]
             chat name
             (py_or (kwargs_get kwargs "openai_proxy") getenv_proxy).
Proof.
  destruct cls as [[| [t |]] [| [b |]] [| [v |]]], deployment_name as [name |];
    cbn; intros H; try discriminate.
  injection H as <-. now exists t, b, v, name.
Qed.


Lemma dict_get_set_same {V} (d : list (string * V)) key v :
  dict_get (dict_set d key v) key = Some v.
Proof.
  induction d as [| [k x] d IH]; cbn.
  - now rewrite String.eqb_refl.
  - destruct (String.eqb k key) eqn:Hk; cbn; rewrite Hk; [reflexivity | exact IH].
Qed.

Lemma dict_get_set_other {V} (d : list (string * V)) key v key' :
  key' <> key ->
  dict_get (dict_set d key v) key' = dict_get d key'.
Proof.
  intros Hne. induction d as [| [k x] d IH]; cbn.
  - destruct (String.eqb_spec key key'); [congruence | reflexivity].
  - destruct (String.eqb_spec k key) as [-> | Hk]; cbn.
    + destruct (String.eqb_spec key key'); [congruence | reflexivity].
    + now rewrite IH.
Qed.

Lemma dict_keys_set {V} (d : list (string * V)) key v :
  dict_keys (dict_set d key v) =
  if in_dec string_dec key (dict_keys d) then dict_keys d
  else (dict_keys d ++ [key])%list.
Proof.
  unfold dict_keys. induction d as [| [k x] d IH]; cbn [dict_set map fst].
  - now destruct (in_dec string_dec key []).
  - destruct (String.eqb_spec k key) as [-> | Hk].
    + cbn [map fst]. destruct (in_dec string_dec key (key :: map fst d)) as [| Hn];
        [reflexivity |].
      exfalso. apply Hn. now left.
    + cbn [map fst]. rewrite IH.
      destruct (in_dec string_dec key (map fst d)) as [Hin | Hn],
               (in_dec string_dec key (k :: map fst d)) as [Hin' | Hn'];
        try reflexivity.
      * exfalso. apply Hn'. now right.
      * destruct Hin' as [-> | Hin']; [congruence | contradiction].
Qed.

(** X10.  In the parameters [_default_params] returns, [engine] is the
    deployment name the object was built with, whatever the base class had
    under that key; every other key has the value the base class gave it,
    and the keys keep their order, [engine] going last if it is new. *)
Theorem default_params_engine {Other} cls api_token api_base api_version
    deployment_name chat kwargs getenv_proxy self
    (super_default_params : list (string * param_value Other)) :
  AzureOpenAI_init cls api_token api_base api_version deployment_name chat
    kwargs getenv_proxy = Ok self ->
  option_map ParamStr deployment_name =
    dict_get (default_params super_default_params self) "engine" /\
  (forall key, key <> "engine" ->
     dict_get (default_params super_default_params self) key =
     dict_get super_default_params key) /\
  dict_keys (default_params super_default_params self) =
    if in_dec string_dec "engine" (dict_keys super_default_params)
    then dict_keys super_default_params
    else (dict_keys super_default_params ++ ["engine"])%list.
Proof.
  intros H. apply init_Ok_inv in H.
  destruct H as (t & b & v & name & -> & -> & ->).
  unfold default_params. cbn [engine option_map]. repeat split.
  - now rewrite dict_get_set_same.
  - intros key Hne. now apply dict_get_set_other.
  - apply dict_keys_set.
Qed.

(** With a [str] as [suffix], [call] asks the router once, through
    [completion] for a chat model and [text_completion] otherwise, with the
    prompt text followed by the suffix; it returns the router's outcome as
    it is, and [last_prompt] holds what was sent even when the router
    raised.  When [to_string] raises, the router is not asked and
    [last_prompt] stays as it was. *)
Lemma call_sends_prompt_and_suffix self rt last_prompt text suffix e :
  AzureOpenAI_call self rt last_prompt (Ok text) (PyStr suffix) =
    ((if is_chat_model self then completion rt else text_completion rt)
       (text ++ suffix),
     Some (text ++ suffix)) /\
  AzureOpenAI_call self rt last_prompt (Raise e) (PyStr suffix) =
    (Raise e, last_prompt).
Proof. split; cbn; [now destruct (is_chat_model self) | reflexivity]. Qed.

(** X11.  With an [AzureOpenAI] as the backend of [LLMCall.execute], the
    pipeline context arrives as [suffix]; when it is an object that cannot
    be added to a [str], every call raises [TypeError] before the router is
    asked, and [execute] raises it on the first attempt, whatever the retry
    limit [>= 0], the router and the prompt: one call, nothing logged,
    nothing added to the context. *)
Theorem azure_backend_raises_TypeError {Input} (self : AzureOpenAI)
    (rt : nat -> Router) (to_string : Input -> Result string)
    (class_name : string) (k : Z) (input : Input) (text : string) (w : World) :
  0 <= k ->
  to_string input = Ok text ->
  execute (mkConfig k (azure_backend self rt to_string (PyObject class_name)))
          input w =
  Some (Raise (CollaboratorError "TypeError"
                 ("can only concatenate str (not " ++ double_quote ++ class_name
                  ++ double_quote ++ ") to str")),
        mkWorld (S (llm_calls w)) (logger_logs w) (context_log w)
                (events w ++ [EvCall (llm_calls w)])).
Proof.
  intros Hk Htext.
  apply (execute_after_retries Input _ input w []).
  - apply feeds_nil.
  - constructor.
  - cbn. lia.
  - apply turn_backend_raises; [cbn; lia |].
    cbn. unfold azure_backend, AzureOpenAI_call. now rewrite Htext.
Qed.

(** * Concrete runs, continued *)

Lemma negative_limit_returns_None_witness :
  max_retries (markerless (-1) "garbage") < 0 /\
  execute (markerless (-1) "garbage") prompt empty_world =
    Some (Ok None, empty_world).
Proof.
  assert (Hneg : max_retries (markerless (-1) "garbage") < 0) by (cbn; lia).
  refine (conj Hneg _).
  exact (negative_limit_returns_None string (markerless (-1) "garbage") prompt
           empty_world Hneg).
Defined.

Lemma nonnegative_limit_never_returns_None_witness :
  0 <= max_retries (markerless 0 "garbage") /\
  exists res w',
    execute (markerless 0 "garbage") prompt empty_world = Some (res, w') /\
    res <> Ok None /\
    (llm_calls empty_world < llm_calls w')%nat.
Proof.
  assert (Hk : 0 <= max_retries (markerless 0 "garbage")) by (cbn; lia).
  refine (conj Hk _).
  exact (nonnegative_limit_never_returns_None string (markerless 0 "garbage")
           prompt empty_world Hk).
Defined.

Lemma verdict_matches_payload_witness :
  execute third_attempt_yes prompt empty_world =
    Some (Ok (Some (unit_output "<Yes> looks correct")),
          after_add (after_responses empty_world
                       ["garbage"; "garbage"; "<Yes> looks correct"])
                    "<Yes> looks correct") /\
  exists r ctx logs,
    metadata (unit_output "<Yes> looks correct") =
      [("content_type", "string"); ("value", r)] /\
    output (unit_output "<Yes> looks correct") = has_yes r /\
    (output (unit_output "<Yes> looks correct") = false -> has_no r = true) /\
    context_log (after_add (after_responses empty_world
                              ["garbage"; "garbage"; "<Yes> looks correct"])
                           "<Yes> looks correct") =
      (ctx ++ [("llm_call", r)])%list /\
    logger_logs (after_add (after_responses empty_world
                              ["garbage"; "garbage"; "<Yes> looks correct"])
                           "<Yes> looks correct") =
      (logs ++ [log_message r])%list.
Proof.
  refine (conj eq_refl _).
  exact (verdict_matches_payload string third_attempt_yes prompt empty_world
           _ _ eq_refl).
Defined.

Lemma rejected_response_costs_one_retry_witness :
  0 < max_retries third_attempt_yes /\
  llm third_attempt_yes prompt (llm_calls empty_world) = Ok "garbage" /\
  rejected "garbage" /\
  execute third_attempt_yes prompt empty_world =
  execute (one_retry_less third_attempt_yes) prompt
          (after_response empty_world "garbage").
Proof.
  assert (Hk : 0 < max_retries third_attempt_yes) by (cbn; lia).
  assert (Hrej : rejected "garbage") by (split; reflexivity).
  refine (conj Hk (conj eq_refl (conj Hrej _))).
  exact (rejected_response_costs_one_retry string third_attempt_yes prompt
           empty_world "garbage" Hk eq_refl Hrej).
Defined.

Lemma execute_reads_only_allowed_answers_witness :
  max_retries third_attempt_yes_then_down = max_retries third_attempt_yes /\
  (forall j : nat,
      Z.of_nat j <= max_retries third_attempt_yes ->
      llm third_attempt_yes_then_down prompt (llm_calls empty_world + j) =
      llm third_attempt_yes prompt (llm_calls empty_world + j)) /\
  llm third_attempt_yes_then_down prompt 3 <> llm third_attempt_yes prompt 3 /\
  execute third_attempt_yes_then_down prompt empty_world =
  execute third_attempt_yes prompt empty_world.
Proof.
  assert (Hsame : forall j : nat,
             Z.of_nat j <= max_retries third_attempt_yes ->
             llm third_attempt_yes_then_down prompt (llm_calls empty_world + j) =
             llm third_attempt_yes prompt (llm_calls empty_world + j)).
  { intros [| [| [| j]]] Hj; try reflexivity. cbn in Hj. lia. }
  assert (Hdiff : llm third_attempt_yes_then_down prompt 3 <>
                  llm third_attempt_yes prompt 3) by discriminate.
  refine (conj eq_refl (conj Hsame (conj Hdiff _))).
  exact (execute_reads_only_allowed_answers string third_attempt_yes
           third_attempt_yes_then_down prompt eq_refl empty_world Hsame).
Defined.

Lemma default_params_engine_witness :
  AzureOpenAI_init defaults_set None None None (Some "gpt-35") true [] None =
    Ok (mkAzureOpenAI
          [mkDeployment "gpt-3.5-turbo"
             (mkLitellmParams "azure/gpt-35" None None None) 240000 1800]
          true "gpt-35" None) /\
  dict_get
    (default_params [("max_tokens", ParamOther 1000); ("engine", ParamStr "davinci");
                     ("stop", ParamStr "END")]
       (mkAzureOpenAI
          [mkDeployment "gpt-3.5-turbo"
             (mkLitellmParams "azure/gpt-35" None None None) 240000 1800]
          true "gpt-35" None))
    "engine" = Some (ParamStr "gpt-35").
Proof.
  refine (conj eq_refl _).
  symmetry.
  exact (proj1 (default_params_engine defaults_set None None None
                  (Some "gpt-35") true [] None _
                  [("max_tokens", ParamOther 1000); ("engine", ParamStr "davinci");
                   ("stop", ParamStr "END")] eq_refl)).
Defined.

Lemma azure_backend_raises_TypeError_witness :
  0 <= 3 /\
  Ok prompt = Ok prompt /\
  execute (mkConfig 3 (azure_backend
                         (mkAzureOpenAI [] true "gpt-35" None)
                         (fun _ => echo_router) (fun text => Ok text)
                         (PyObject "PipelineContext")))
          prompt empty_world =
  Some (Raise (CollaboratorError "TypeError"
                 ("can only concatenate str (not " ++ double_quote
                  ++ "PipelineContext" ++ double_quote ++ ") to str")),
        mkWorld 1 [] [] [EvCall 0]).
Proof.
  assert (Hk : 0 <= 3) by lia.
  refine (conj Hk (conj eq_refl _)).
  exact (azure_backend_raises_TypeError (mkAzureOpenAI [] true "gpt-35" None)
           (fun _ => echo_router) (fun text => Ok text) "PipelineContext" 3
           prompt prompt empty_world Hk eq_refl).
Defined.
